(** * TextArena basic agents: a shallow embedding of [textarena/basic_agents.py]

    The module defines an abstract [Agent] and three concrete agents:
    [HumanAgent] (keyboard), [GPTAgent] (hosted chat-completion client) and
    [HFLocalAgent] (local text-generation pipeline).  Every method is
    embedded as a computation over an explicit process state [World]
    (environment variables, the module attribute [openai.api_key], the two
    standard streams, the object heap and the state of the external
    libraries) that either returns a value or raises a Python exception. *)

From Stdlib Require Import Ascii String QArith.
From stdpp Require Import base gmap strings list.

(** ** Python strings

    A [string] stands for a Python [str] whose characters are the code
    points below 256. *)

(** [str.isspace] on one character: the code points below 256 that CPython
    classifies as whitespace (TAB..CR, FS..US, SPACE, NEL, NBSP). *)
Definition isspace (c : ascii) : bool :=
  let n := nat_of_ascii c in
  (Nat.leb 9 n && Nat.leb n 13) || (Nat.leb 28 n && Nat.leb n 31)
  || Nat.eqb n 32 || Nat.eqb n 133 || Nat.eqb n 160.

Fixpoint lstrip (s : string) : string :=
  match s with
  | EmptyString => EmptyString
  | String c s' => if isspace c then lstrip s' else s
  end.

Fixpoint rstrip (s : string) : string :=
  match s with
  | EmptyString => EmptyString
  | String c s' =>
      match rstrip s' with
      | EmptyString => if isspace c then EmptyString else String c EmptyString
      | r => String c r
      end
  end.

(** [s.strip()] with no argument. *)
Definition strip (s : string) : string := rstrip (lstrip s).

(** Every character of [s] is whitespace. *)
Fixpoint all_space (s : string) : bool :=
  match s with
  | EmptyString => true
  | String c s' => isspace c && all_space s'
  end.

Definition first_char (s : string) : option ascii :=
  match s with
  | EmptyString => None
  | String c _ => Some c
  end.

Fixpoint last_char (s : string) : option ascii :=
  match s with
  | EmptyString => None
  | String c EmptyString => Some c
  | String _ s' => last_char s'
  end.

(** A string is trimmed when neither end is a whitespace character. *)
Definition trimmed (s : string) : bool :=
  match first_char s, last_char s with
  | Some a, Some b => negb (isspace a) && negb (isspace b)
  | _, _ => true
  end.

Definition newline : ascii := ascii_of_nat 10.

(** One line of a text stream: the characters before the first line feed
    (the terminator is consumed and not returned) and the rest of the
    stream.  A last line without terminator is returned as it stands. *)
Fixpoint readline (s : string) : string * string :=
  match s with
  | EmptyString => (EmptyString, EmptyString)
  | String c s' =>
      if Ascii.eqb c newline then (EmptyString, s')
      else let '(l, r) := readline s' in (String c l, r)
  end.

(** No line feed occurs in [s]. *)
Fixpoint one_line (s : string) : bool :=
  match s with
  | EmptyString => true
  | String c s' => negb (Ascii.eqb c newline) && one_line s'
  end.

(** ** Exceptions and results *)

(** An exception: the name of its class and the text [str(e)] that an
    f-string renders for it. *)
Record exn := Exn { exn_class : string; exn_str : string }.

(** The built-in classes that derive from [BaseException] without deriving
    from [Exception]. *)
Definition base_only : list string :=
  [ "BaseException"; "BaseExceptionGroup"; "GeneratorExit";
    "KeyboardInterrupt"; "SystemExit"; "CancelledError" ].

(** [isinstance(e, Exception)], read off the class of [e]: every class but
    the ones above derives from [Exception]. *)
Definition isinstance_Exception (e : exn) : bool :=
  negb (existsb (String.eqb (exn_class e)) base_only).

Inductive Result (A : Type) : Type :=
| Ok (a : A)
| Raise (e : exn).
Arguments Ok {A} a.
Arguments Raise {A} e.

Definition ValueError (msg : string) : exn := Exn "ValueError" msg.
Definition IndexError (msg : string) : exn := Exn "IndexError" msg.
Definition TypeError (msg : string) : exn := Exn "TypeError" msg.
Definition AttributeError (msg : string) : exn := Exn "AttributeError" msg.
Definition EOFError (msg : string) : exn := Exn "EOFError" msg.
(** [str(KeyError(k))] is the [repr] of the key. *)
Definition KeyError (key : string) : exn :=
  Exn "KeyError" ("'" +:+ key +:+ "'").

(** Truth value of an [Optional[str]]: [None] and the empty string are
    falsy. *)
Definition truthy (v : option string) : bool :=
  match v with
  | None => false
  | Some s => negb (String.eqb s "")
  end.

(** ** External libraries

    [openai] and [transformers] are not part of the repository.  Their
    objects are abstract types, and their entry points are functions of an
    abstract library state [Ext] (network, caches, loaded weights) that may
    return or raise. *)

Class LibTypes := {
  Ext : Type;
  Client : Type;
  Tokenizer : Type;
  Model : Type;
  Pipeline : Type;
}.

Section Values.
Context {LT : LibTypes}.

(** What an attribute of an agent can hold. *)
Inductive value :=
| VStr (s : string)
| VBool (b : bool)
| VClient (c : Client)
| VTokenizer (t : Tokenizer)
| VModel (m : Model)
| VPipeline (p : Pipeline).

(** [type(v).__name__], as it appears in interpreter messages. *)
Definition type_name (v : value) : string :=
  match v with
  | VStr _ => "str"
  | VBool _ => "bool"
  | VClient _ => "OpenAI"
  | VTokenizer _ => "PreTrainedTokenizer"
  | VModel _ => "PreTrainedModel"
  | VPipeline _ => "TextGenerationPipeline"
  end.

Inductive class := HumanAgent | GPTAgent | HFLocalAgent.

Definition class_name (c : class) : string :=
  match c with
  | HumanAgent => "HumanAgent"
  | GPTAgent => "GPTAgent"
  | HFLocalAgent => "HFLocalAgent"
  end.

(** An instance: its class and its attribute dictionary. *)
Record object := Object {
  obj_class : class;
  obj_attrs : gmap string value;
}.

(** *** Requests and responses of the two back ends *)

Record ChatMessage := { role : string; content : string }.

(** Keyword arguments of [client.chat.completions.create]. *)
Record ChatRequest := {
  req_model : value;
  req_messages : list ChatMessage;
  req_n : nat;
  req_stop : option string;
  req_temperature : Q;
}.

(** [response.choices[i].message.content] is an [Optional[str]]. *)
Record Choice := { message_content : option string }.
Record ChatCompletion := { choices : list Choice }.

(** Arguments of a call of the text-generation pipeline. *)
Record PipelineRequest := {
  text_inputs : string;
  num_return_sequences : nat;
  temperature : Q;
  return_full_text : bool;
}.

(** Calls into the external libraries, in the order they were made. *)
Inductive event :=
| EvOpenAI (base_url : string)
| EvCreate (c : Client) (req : ChatRequest)
| EvTokenizer (name : string)
| EvModel (name : string) (load_in_8bit : bool)
| EvPipeline (task : string) (m t : value)
| EvGenerate (p : Pipeline) (req : PipelineRequest).

Definition loc := nat.

(** ** The process state *)
Record World := mkWorld {
  environ : gmap string string;     (* os.environ *)
  openai_api_key : option string;   (* the module attribute openai.api_key *)
  stdin : string;                   (* unread characters of sys.stdin *)
  stdout : string;                  (* everything written to sys.stdout *)
  heap : list object;               (* agent instances, by address *)
  trace : list event;               (* library calls made so far *)
  ext : Ext;                        (* state of the external libraries *)
}.

Definition with_environ (env : gmap string string) (w : World) : World :=
  mkWorld env (openai_api_key w) (stdin w) (stdout w) (heap w) (trace w) (ext w).
Definition with_api_key (k : option string) (w : World) : World :=
  mkWorld (environ w) k (stdin w) (stdout w) (heap w) (trace w) (ext w).
Definition with_stdin (s : string) (w : World) : World :=
  mkWorld (environ w) (openai_api_key w) s (stdout w) (heap w) (trace w) (ext w).
Definition with_stdout (s : string) (w : World) : World :=
  mkWorld (environ w) (openai_api_key w) (stdin w) s (heap w) (trace w) (ext w).
Definition with_heap (h : list object) (w : World) : World :=
  mkWorld (environ w) (openai_api_key w) (stdin w) (stdout w) h (trace w) (ext w).
(** A library call: its event is logged and the library state replaced. *)
Definition with_ext (ev : event) (e : Ext) (w : World) : World :=
  mkWorld (environ w) (openai_api_key w) (stdin w) (stdout w) (heap w)
          (trace w ++ [ev]) e.

(** ** Computations: state passing with exceptions

    The state survives a raise, as in Python. *)
Definition Py (A : Type) : Type := World -> Result A * World.

Definition ret {A} (a : A) : Py A := fun w => (Ok a, w).
Definition raise {A} (e : exn) : Py A := fun w => (Raise e, w).
Definition bind {A B} (m : Py A) (k : A -> Py B) : Py B :=
  fun w =>
    match m w with
    | (Ok a, w') => k a w'
    | (Raise e, w') => (Raise e, w')
    end.

(** [try: body  except Exception as e: handler e]: an exception that is
    not an instance of [Exception] passes the handler by. *)
Definition try_except {A} (body : Py A) (handler : exn -> Py A) : Py A :=
  fun w =>
    match body w with
    | (Ok a, w') => (Ok a, w')
    | (Raise e, w') =>
        if isinstance_Exception e then handler e w' else (Raise e, w')
    end.
End Values.

Declare Scope py_scope.
Delimit Scope py_scope with py.
Notation "x <- m ;; k" := (bind m (fun x => k))
  (at level 100, m at next level, right associativity) : py_scope.
Notation "m ;; k" := (bind m (fun _ => k))
  (at level 100, right associativity) : py_scope.

Local Open Scope py_scope.

(** Entry points of [openai] and [transformers] used by the module.  The
    client constructor may consult the environment. *)
Class LibOps {LT : LibTypes} := {
  openai_OpenAI :
    string -> gmap string string -> Ext -> Result Client * Ext;
  chat_completions_create :
    Client -> ChatRequest -> Ext -> Result ChatCompletion * Ext;
  AutoTokenizer_from_pretrained :
    string -> Ext -> Result Tokenizer * Ext;
  AutoModelForCausalLM_from_pretrained :
    string -> bool -> Ext -> Result Model * Ext;
  transformers_pipeline :
    string -> value -> value -> Ext -> Result Pipeline * Ext;
  pipeline_call :
    Pipeline -> PipelineRequest -> Ext
    -> Result (list (gmap string string)) * Ext;
}.

Section Agents.
Context {LT : LibTypes} {LO : LibOps}.

(** ** Interpreter primitives *)

(** [os.getenv(name)] *)
Definition os_getenv (name : string) : Py (option string) :=
  fun w => (Ok (environ w !! name), w).

(** [openai.api_key = k] and the read of [openai.api_key]. *)
Definition set_openai_api_key (k : option string) : Py unit :=
  fun w => (Ok tt, with_api_key k w).
Definition get_openai_api_key : Py (option string) :=
  fun w => (Ok (openai_api_key w), w).

(** [print(s)] *)
Definition print (s : string) : Py unit :=
  fun w => (Ok tt, with_stdout (stdout w +:+ s +:+ String newline "") w).

(** [input(prompt)]: the prompt goes to standard output, then one line is
    read; at end of file [EOFError] is raised. *)
Definition input (prompt : string) : Py string :=
  fun w =>
    let w1 := with_stdout (stdout w +:+ prompt) w in
    match stdin w1 with
    | EmptyString => (Raise (EOFError "EOF when reading a line"), w1)
    | s => let '(l, r) := readline s in (Ok l, with_stdin r w1)
    end.

(** A new instance of class [c] without attributes. *)
Definition alloc (c : class) : Py loc :=
  fun w => (Ok (length (heap w)), with_heap (heap w ++ [Object c ∅]) w).

(** [self.name = v] *)
Definition setattr (self : loc) (name : string) (v : value) : Py unit :=
  fun w =>
    (Ok tt,
     with_heap
       (alter (fun o => Object (obj_class o) (<[name := v]> (obj_attrs o)))
              self (heap w)) w).

Definition no_attribute (ty name : string) : exn :=
  AttributeError ("'" +:+ ty +:+ "' object has no attribute '" +:+ name +:+ "'").

(** [self.name].  An address outside the heap denotes no object; the
    read then fails like a read of a missing attribute. *)
Definition getattr (self : loc) (name : string) : Py value :=
  fun w =>
    match heap w !! self with
    | Some o =>
        match obj_attrs o !! name with
        | Some v => (Ok v, w)
        | None => (Raise (no_attribute (class_name (obj_class o)) name), w)
        end
    | None => (Raise (no_attribute "object" name), w)
    end.

(** [l[0]] *)
Definition index0 {A} (l : list A) : Py A :=
  match l with
  | x :: _ => ret x
  | [] => raise (IndexError "list index out of range")
  end.

(** [d[key]] *)
Definition getitem (d : gmap string string) (key : string) : Py string :=
  match d !! key with
  | Some v => ret v
  | None => raise (KeyError key)
  end.

(** [content.strip()] on an [Optional[str]]. *)
Definition content_strip (content : option string) : Py string :=
  match content with
  | Some s => ret (strip s)
  | None => raise (no_attribute "NoneType" "strip")
  end.

(** [v.chat.completions.create]: only a client has the attribute. *)
Definition chat_completions (v : value) : Py Client :=
  match v with
  | VClient c => ret c
  | _ => raise (no_attribute (type_name v) "chat")
  end.

(** The callee of [v(...)]: of the values an agent's [pipeline] attribute
    is given by this module, only a pipeline; anything else is rendered
    as the interpreter's refusal to call it. *)
Definition callable (v : value) : Py Pipeline :=
  match v with
  | VPipeline p => ret p
  | _ => raise (TypeError ("'" +:+ type_name v +:+ "' object is not callable"))
  end.

(** A call into a library: logged, and run on the library state. *)
Definition lib {A} (ev : event) (f : Ext -> Result A * Ext) : Py A :=
  fun w => let '(r, e) := f (ext w) in (r, with_ext ev e w).

Definition OpenAI (base_url : string) : Py Client :=
  fun w => lib (EvOpenAI base_url) (openai_OpenAI base_url (environ w)) w.
Definition create (c : Client) (req : ChatRequest) : Py ChatCompletion :=
  lib (EvCreate c req) (chat_completions_create c req).
Definition tokenizer_from_pretrained (name : string) : Py Tokenizer :=
  lib (EvTokenizer name) (AutoTokenizer_from_pretrained name).
Definition model_from_pretrained (name : string) (load_in_8bit : bool)
  : Py Model :=
  lib (EvModel name load_in_8bit)
      (AutoModelForCausalLM_from_pretrained name load_in_8bit).
Definition pipeline (task : string) (model tokenizer : value) : Py Pipeline :=
  lib (EvPipeline task model tokenizer)
      (transformers_pipeline task model tokenizer).
Definition generate (p : Pipeline) (req : PipelineRequest)
  : Py (list (gmap string string)) :=
  lib (EvGenerate p req) (pipeline_call p req).

(** [C(args)]: allocate, run [__init__], return the instance.  An
    exception of [__init__] propagates. *)
Definition new (c : class) (init : loc -> Py unit) : Py loc :=
  self <- alloc c ;; init self ;; ret self.

(** ** class Agent *)

Definition Agent_init (self : loc) (model_name : string) : Py unit :=
  setattr self "model_name" (VStr model_name) ;;
  setattr self "agent_identifier" (VStr model_name).

(** ** class HumanAgent *)

Definition HumanAgent_init (self : loc) (model_name : string) : Py unit :=
  Agent_init self model_name.

Definition HumanAgent_call (self : loc) (observation : string) : Py string :=
  print observation ;;
  input "Please enter the action: ".

Definition new_HumanAgent (model_name : string) : Py loc :=
  new HumanAgent (fun self => HumanAgent_init self model_name).

(** ** class GPTAgent *)

Definition OPENAI_API_KEY : string := "OPENAI_API_KEY".
Definition key_not_found : string :=
  "OpenAI API key not found. Please set the OPENAI_API_KEY environment variable.".
Definition openrouter : string := "https://openrouter.ai/api/v1".

Definition GPTAgent_init (self : loc) (model_name : string) : Py unit :=
  Agent_init self model_name ;;
  k <- os_getenv OPENAI_API_KEY ;;
  set_openai_api_key k ;;
  k' <- get_openai_api_key ;;
  if negb (truthy k') then raise (ValueError key_not_found)
  else
    c <- OpenAI openrouter ;;
    setattr self "client" (VClient c).

Definition error_occurred (e : exn) : string :=
  "An error occurred: " +:+ exn_str e.

Definition chat_request (model : value) (observation : string) : ChatRequest :=
  {| req_model := model;
     req_messages :=
       [ {| role := "system"; content := "You are a helpful assistant." |};
         {| role := "user"; content := observation |} ];
     req_n := 1;
     req_stop := None;
     req_temperature := 7 # 10 |}.

Definition GPTAgent_call (self : loc) (observation : string) : Py string :=
  try_except
    (client <- getattr self "client" ;;
     c <- chat_completions client ;;
     model <- getattr self "model_name" ;;
     response <- create c (chat_request model observation) ;;
     choice <- index0 (choices response) ;;
     action <- content_strip (message_content choice) ;;
     ret action)
    (fun e => ret (error_occurred e)).

Definition new_GPTAgent (model_name : string) : Py loc :=
  new GPTAgent (fun self => GPTAgent_init self model_name).

(** ** class HFLocalAgent *)

Definition HFLocalAgent_init (self : loc) (model_name : string)
    (quantize : bool) : Py unit :=
  Agent_init self model_name ;;
  setattr self "quantize" (VBool quantize) ;;
  t <- tokenizer_from_pretrained model_name ;;
  setattr self "tokenizer" (VTokenizer t) ;;
  m <- (if quantize then model_from_pretrained model_name true
        else model_from_pretrained model_name false) ;;
  setattr self "model" (VModel m) ;;
  model <- getattr self "model" ;;
  tokenizer <- getattr self "tokenizer" ;;
  p <- pipeline "text-generation" model tokenizer ;;
  setattr self "pipeline" (VPipeline p).

Definition pipeline_request (observation : string) : PipelineRequest :=
  {| text_inputs := observation;
     num_return_sequences := 1;
     temperature := 7 # 10;
     return_full_text := false |}.

Definition HFLocalAgent_call (self : loc) (observation : string) : Py string :=
  try_except
    (pipe <- getattr self "pipeline" ;;
     p <- callable pipe ;;
     response <- generate p (pipeline_request observation) ;;
     first <- index0 response ;;
     text <- getitem first "generated_text" ;;
     ret (strip text))
    (fun e => ret (error_occurred e)).

Definition new_HFLocalAgent (model_name : string) (quantize : bool) : Py loc :=
  new HFLocalAgent (fun self => HFLocalAgent_init self model_name quantize).

(** Reading an attribute of an instance in a given state. *)
Definition attr (w : World) (self : loc) (name : string) : option value :=
  o ← heap w !! self; obj_attrs o !! name.

(** ** The three variants side by side *)

Inductive variant := Interactive | Remote | Local.

(** [variant(model_name)]; [quantize] is read by the local variant only. *)
Definition construct (v : variant) (model_name : string) (quantize : bool)
  : Py loc :=
  match v with
  | Interactive => new_HumanAgent model_name
  | Remote => new_GPTAgent model_name
  | Local => new_HFLocalAgent model_name quantize
  end.

(** [self(observation)] for an instance of the given variant. *)
Definition call_of (v : variant) : loc -> string -> Py string :=
  match v with
  | Interactive => HumanAgent_call
  | Remote => GPTAgent_call
  | Local => HFLocalAgent_call
  end.
End Agents.

(** ** Vocabulary of the properties *)

Section Specs.
Context {LT : LibTypes} {LO : LibOps}.
Implicit Types (w : World) (self l : loc) (v : variant).

(** Library calls that serve a request, as opposed to those that acquire a
    resource (a client, a tokenizer, a model, a pipeline). *)
Definition is_request (ev : event) : bool :=
  match ev with
  | EvCreate _ _ | EvGenerate _ _ => true
  | _ => false
  end.

(** What a step may do when it stores nothing: instances, module attributes
    and environment stay as they are, and the libraries are only asked to
    serve requests. *)
Definition same_store w w' : Prop :=
  heap w' = heap w
  /\ openai_api_key w' = openai_api_key w
  /\ environ w' = environ w
  /\ exists evs, trace w' = trace w ++ evs /\ forallb is_request evs = true.

Definition keeps_store {A} (m : Py A) : Prop :=
  forall w, same_store w (snd (m w)).

(** A step that leaves the module-level state, which all instances of the
    process have in common, as it found it. *)
Definition shares_nothing {A} (m : Py A) w : Prop :=
  openai_api_key (snd (m w)) = openai_api_key w.

(** Both identifier attributes of an object hold [m]. *)
Definition named (m : string) (o : object) : Prop :=
  obj_attrs o !! "model_name" = Some (VStr m)
  /\ obj_attrs o !! "agent_identifier" = Some (VStr m).

(** The data-model invariant: the stored model identifier is a non-empty
    string. *)
Definition identifier_nonempty w self : bool :=
  match attr w self "model_name" with
  | Some (VStr s) => negb (String.eqb s "")
  | _ => false
  end.




(** The client or the pipeline of [self] answers the request made for
    [observation], and the text of the first candidate (remote) or of the
    first generated sequence (local) is [text]. *)
Definition backend_returns v self (observation : string) w (text : string)
  : Prop :=
  match v with
  | Interactive => False
  | Remote =>
      exists c model x choice rest,
        attr w self "client" = Some (VClient c)
        /\ attr w self "model_name" = Some model
        /\ chat_completions_create c (chat_request model observation) (ext w)
           = (Ok {| choices := choice :: rest |}, x)
        /\ message_content choice = Some text
  | Local =>
      exists p x (first : gmap string string) rest,
        attr w self "pipeline" = Some (VPipeline p)
        /\ pipeline_call p (pipeline_request observation) (ext w)
           = (Ok (first :: rest), x)
        /\ first !! "generated_text" = Some text
  end.

(** The request behind [ev] asks for one candidate; for the local variant it
    also carries the observation as prompt and asks for the continuation
    without the prompt. *)
Definition asks_for_one v (observation : string) (ev : event) : bool :=
  match v, ev with
  | Remote, EvCreate _ req => Nat.eqb (req_n req) 1
  | Local, EvGenerate _ req =>
      Nat.eqb (num_return_sequences req) 1
      && negb (return_full_text req)
      && String.eqb (text_inputs req) observation
  | _, _ => false
  end.

(** A step that acquires no resource from a library and assigns no module
    attribute. *)
Definition acquires_nothing {A} (m : Py A) w : Prop :=
  openai_api_key (snd (m w)) = openai_api_key w
  /\ exists evs, trace (snd (m w)) = trace w ++ evs
                 /\ forallb is_request evs = true.

(** A step leaves the behaviour of the instance [l] of variant [v] as it
    was: every call of that instance returns or raises after the step what
    it would have returned or raised before. *)
Definition undisturbed {A} (step : Py A) v l w : Prop :=
  forall observation,
    fst (call_of v l observation (snd (step w)))
    = fst (call_of v l observation w).

(** Two states in which the instance [self] has the same attributes, the
    same characters wait on standard input and the libraries are in the same
    state. *)
Definition agree self w1 w2 : Prop :=
  heap w1 !! self = heap w2 !! self
  /\ stdin w1 = stdin w2
  /\ ext w1 = ext w2.

(** A step whose outcome depends on nothing else, and which keeps two such
    states in agreement. *)
Definition respects self {A} (m : Py A) : Prop :=
  forall w1 w2,
    agree self w1 w2 ->
    fst (m w1) = fst (m w2) /\ agree self (snd (m w1)) (snd (m w2)).
End Specs.

(** ** Mocked libraries

    Scripted stand-ins for the two libraries, used to run the agents on
    concrete inputs: the library state is the list of replies still to be
    served to completion and generation requests. *)
Module Mock.
Inductive reply :=
| ReplyText (s : string)
| ReplyFail (e : exn).

#[export] Instance types : LibTypes := {|
  Ext := list reply;
  Client := string;
  Tokenizer := string;
  Model := string * bool;
  Pipeline := string;
|}.

Definition connection_error : exn := Exn "APIConnectionError" "Connection error.".

Definition serve {A} (wrap : string -> A) (script : list reply)
  : Result A * list reply :=
  match script with
  | ReplyText s :: rest => (Ok (wrap s), rest)
  | ReplyFail e :: rest => (Raise e, rest)
  | [] => (Raise connection_error, [])
  end.

#[export] Instance ops : LibOps := {|
  openai_OpenAI base_url _ x := (Ok base_url, x);
  chat_completions_create _ _ :=
    serve (fun s => {| choices := [ {| message_content := Some s |} ] |});
  AutoTokenizer_from_pretrained name x := (Ok name, x);
  AutoModelForCausalLM_from_pretrained name q x := (Ok (name, q), x);
  transformers_pipeline task _ _ x := (Ok task, x);
  pipeline_call _ _ :=
    serve (fun s => [ ({[ "generated_text" := s ]} : gmap string string) ]);
|}.

(** A process with the given credential, keyboard input and script. *)
Definition world (key : option string) (keyboard : string)
    (script : list reply) : World :=
  {| environ := match key with
                | Some k => {[ OPENAI_API_KEY := k ]}
                | None => ∅
                end;
     openai_api_key := None;
     stdin := keyboard;
     stdout := "";
     heap := [];
     trace := [];
     ext := script |}.

Definition lf : string := String newline "".

(** The state after [HumanAgent("human")], [GPTAgent("gpt-4o")] and
    [HFLocalAgent("gpt2")] in a fresh process. *)
Definition human (keyboard : string) : World :=
  snd (new_HumanAgent "human" (world None keyboard [])).
Definition remote (script : list reply) : World :=
  snd (new_GPTAgent "gpt-4o" (world (Some "sk-test") "" script)).
Definition local (script : list reply) : World :=
  snd (new_HFLocalAgent "gpt2" false (world None "" script)).


(** Two instances of [HumanAgent] at one keyboard. *)
Definition two_humans (keyboard : string) : World :=
  snd (new_HumanAgent "black" (snd (new_HumanAgent "white" (world None keyboard [])))).

(** The process of [remote], after its caller has replaced the credential
    ([os.environ["OPENAI_API_KEY"] = "sk-other"]). *)
Definition rotated : World :=
  with_environ {[ OPENAI_API_KEY := "sk-other" ]} (remote []).
End Mock.

(** ** Vocabulary of the further properties *)

Section Lifecycle.
Context {LT : LibTypes} {LO : LibOps}.
Implicit Types (w : World) (self l : loc) (v : variant).

(** A step relates the state it starts in with the state it ends in. *)
Definition preserves (R : World -> World -> Prop) {A} (m : Py A) : Prop :=
  forall w, R w (snd (m w)).

(** The two standard streams agree in two states. *)
Definition same_streams w w' : Prop :=
  stdin w' = stdin w /\ stdout w' = stdout w.

(** The state after a caller has made the given calls one after the other,
    whatever each of them returned or raised. *)
Fixpoint after_calls (cs : list (variant * loc * string)) w : World :=
  match cs with
  | [] => w
  | (v, self, observation) :: cs' =>
      after_calls cs' (snd (call_of v self observation w))
  end.

Definition class_of v : class :=
  match v with
  | Interactive => HumanAgent
  | Remote => GPTAgent
  | Local => HFLocalAgent
  end.

(** The attributes the constructors assign. *)
Definition attribute_names v : gset string :=
  match v with
  | Interactive => {[ "model_name"; "agent_identifier" ]}
  | Remote => {[ "model_name"; "agent_identifier"; "client" ]}
  | Local =>
      {[ "model_name"; "agent_identifier"; "quantize"; "tokenizer"; "model";
         "pipeline" ]}
  end.
End Lifecycle.

(** ** Replayed libraries

    A second stand-in for the two libraries, which replays recorded
    responses as they are (also malformed ones) and knows one model
    repository, [gpt2], and one that holds a tokenizer but no weights. *)
Module Replay.
Record tape := {
  completions : list (Result ChatCompletion);
  generations : list (Result (list (gmap string string)));
}.

Definition types : LibTypes := {|
  Ext := tape;
  Client := string;
  Tokenizer := string;
  Model := string * bool;
  Pipeline := string;
|}.

Definition not_found (name : string) : exn :=
  Exn "OSError" (name +:+ " is not a valid model identifier").

Definition has_tokenizer (name : string) : bool :=
  String.eqb name "gpt2" || String.eqb name "tokenizer-only".

Definition has_weights (name : string) : bool := String.eqb name "gpt2".

Definition timeout : exn := Exn "APITimeoutError" "Request timed out.".

Definition ops : @LibOps types := {|
  openai_OpenAI base_url _ (x : @Ext types) := (Ok (base_url : @Client types), x);
  chat_completions_create _ _ (x : @Ext types) :=
    match completions x with
    | r :: rest => (r, {| completions := rest; generations := generations x |})
    | [] => (Raise timeout, x)
    end;
  AutoTokenizer_from_pretrained name (x : @Ext types) :=
    if has_tokenizer name then (Ok (name : @Tokenizer types), x)
    else (Raise (not_found name), x);
  AutoModelForCausalLM_from_pretrained name q (x : @Ext types) :=
    if has_weights name then (Ok ((name, q) : @Model types), x)
    else (Raise (not_found name), x);
  transformers_pipeline task _ _ (x : @Ext types) :=
    (Ok (task : @Pipeline types), x);
  pipeline_call _ _ (x : @Ext types) :=
    match generations x with
    | r :: rest => (r, {| completions := completions x; generations := rest |})
    | [] => (Raise timeout, x)
    end;
|}.

(** A process with the credential set and the given recording. *)
Definition world (keyboard : string) (x : tape) : @World types :=
  @mkWorld types {[ OPENAI_API_KEY := "sk-test" ]} None keyboard "" [] [] x.

Definition blank : tape := {| completions := []; generations := [] |}.

(** The state after [GPTAgent("gpt-4o")], resp. [HFLocalAgent("gpt2")]. *)
Definition remote (rs : list (Result ChatCompletion)) : @World types :=
  snd (@new_GPTAgent types ops "gpt-4o"
         (world "" {| completions := rs; generations := [] |})).
Definition local (rs : list (Result (list (gmap string string))))
  : @World types :=
  snd (@new_HFLocalAgent types ops "gpt2" false
         (world "" {| completions := []; generations := rs |})).
End Replay.

(** * Properties *)

(** ** Strings *)

Section Strings.
Implicit Types (s t : string) (c : ascii).

Lemma append_nil s : "" +:+ s = s.
Proof. reflexivity. Qed.

Lemma append_cons c s t : String c s +:+ t = String c (s +:+ t).
Proof. reflexivity. Qed.

Lemma lstrip_decompose s :
  exists a, all_space a = true /\ s = a +:+ lstrip s.
Proof.
  induction s as [|c s [a [Ha Hs]]]; simpl.
  - exists "". split; reflexivity.
  - destruct (isspace c) eqn:Hc.
    + exists (String c a). simpl. rewrite Hc, Ha. split; [reflexivity|].
      rewrite append_cons, <- Hs. reflexivity.
    + exists "". split; reflexivity.
Qed.

Lemma rstrip_decompose s :
  exists b, all_space b = true /\ s = rstrip s +:+ b.
Proof.
  induction s as [|c s [b [Hb Hs]]]; simpl.
  - exists "". split; reflexivity.
  - destruct (rstrip s) as [|d r] eqn:Hr.
    + rewrite append_nil in Hs. destruct (isspace c) eqn:Hc.
      * exists (String c b). simpl. rewrite Hc, Hb, append_nil, <- Hs.
        split; reflexivity.
      * exists b. split; [exact Hb|].
        rewrite append_cons, append_nil, <- Hs. reflexivity.
    + exists b. split; [exact Hb|]. rewrite append_cons, <- Hs. reflexivity.
Qed.

Lemma lstrip_first s c :
  first_char (lstrip s) = Some c -> isspace c = false.
Proof.
  induction s as [|d s IH]; simpl; [discriminate|].
  destruct (isspace d) eqn:Hd; [exact IH|].
  simpl. intros [= <-]. exact Hd.
Qed.

Lemma rstrip_last s c :
  last_char (rstrip s) = Some c -> isspace c = false.
Proof.
  induction s as [|d s IH]; simpl; [discriminate|].
  destruct (rstrip s) as [|e r].
  - destruct (isspace d) eqn:Hd; simpl; [discriminate|].
    intros [= <-]. exact Hd.
  - exact IH.
Qed.

(** Trimming on the right leaves the first character in place. *)
Lemma rstrip_first s c :
  first_char (rstrip s) = Some c -> first_char s = Some c.
Proof.
  destruct s as [|d s]; simpl; [discriminate|].
  destruct (rstrip s); [destruct (isspace d)|]; simpl; [discriminate|..];
    intros H; exact H.
Qed.

Lemma strip_trimmed s : trimmed (strip s) = true.
Proof.
  unfold trimmed, strip.
  destruct (first_char (rstrip (lstrip s))) as [a|] eqn:Ha; [|reflexivity].
  destruct (last_char (rstrip (lstrip s))) as [b|] eqn:Hb; [|reflexivity].
  apply rstrip_first, lstrip_first in Ha. apply rstrip_last in Hb.
  rewrite Ha, Hb. reflexivity.
Qed.

(** [strip] removes whitespace only, and only at the two ends. *)
Lemma strip_decompose s :
  exists a b,
    all_space a = true /\ all_space b = true /\ s = a +:+ strip s +:+ b.
Proof.
  destruct (lstrip_decompose s) as [a [Ha Hs]].
  destruct (rstrip_decompose (lstrip s)) as [b [Hb Hl]].
  exists a, b. repeat split; [exact Ha|exact Hb|].
  unfold strip. rewrite <- Hl. exact Hs.
Qed.

Lemma readline_terminated line rest :
  one_line line = true ->
  readline (line +:+ String newline rest) = (line, rest).
Proof.
  induction line as [|c line IH]; simpl; intros H.
  - reflexivity.
  - apply andb_prop in H as [Hc Hl]. rewrite ?append_cons. simpl.
    destruct (Ascii.eqb c newline); [discriminate|].
    rewrite (IH Hl). reflexivity.
Qed.

Lemma truthy_false (k : option string) :
  truthy k = false <-> k = None \/ k = Some "".
Proof.
  destruct k as [s|]; simpl.
  - rewrite negb_false_iff, String.eqb_eq. split.
    + intros ->. right. reflexivity.
    + intros [H|[= H]]; [discriminate|exact H].
  - split; [left; reflexivity|reflexivity].
Qed.

Lemma lstrip_all_space s : all_space s = true -> lstrip s = "".
Proof.
  induction s as [|c s IH]; simpl; [reflexivity|].
  intros H. apply andb_prop in H as [-> Hs]. exact (IH Hs).
Qed.

Lemma strip_all_space s : all_space s = true -> strip s = "".
Proof. intros H. unfold strip. rewrite (lstrip_all_space s H). reflexivity. Qed.

Lemma readline_one_line s : one_line (fst (readline s)) = true.
Proof.
  induction s as [|c s IH]; simpl; [reflexivity|].
  destruct (Ascii.eqb c newline) eqn:Hc; [reflexivity|].
  destruct (readline s) as [l r]. simpl in *. rewrite Hc, IH. reflexivity.
Qed.

Lemma readline_unterminated line :
  one_line line = true -> readline line = (line, "").
Proof.
  induction line as [|c line IH]; simpl; [reflexivity|].
  intros H. apply andb_prop in H as [Hc Hl].
  destruct (Ascii.eqb c newline); [discriminate|].
  rewrite (IH Hl). reflexivity.
Qed.
End Strings.

(** ** Steps that store nothing *)

Section Frames.
Context {LT : LibTypes} {LO : LibOps}.
Implicit Types (w : World) (self l : loc) (v : variant).

Lemma same_store_refl w : same_store w w.
Proof.
  repeat split. exists []. split; [symmetry; apply app_nil_r|reflexivity].
Qed.

Lemma same_store_trans w1 w2 w3 :
  same_store w1 w2 -> same_store w2 w3 -> same_store w1 w3.
Proof.
  intros (H1 & H2 & H3 & evs & H4 & H5) (K1 & K2 & K3 & evs' & K4 & K5).
  repeat split; [congruence..|].
  exists (evs ++ evs'). split.
  - rewrite K4, H4. symmetry. apply app_assoc.
  - rewrite forallb_app, H5, K5. reflexivity.
Qed.

Lemma keeps_ret {A} (a : A) : keeps_store (ret a).
Proof. intros w. apply same_store_refl. Qed.

Lemma keeps_raise {A} (e : exn) : keeps_store (raise (A := A) e).
Proof. intros w. apply same_store_refl. Qed.

Lemma keeps_bind {A B} (m : Py A) (k : A -> Py B) :
  keeps_store m -> (forall a, keeps_store (k a)) -> keeps_store (bind m k).
Proof.
  intros Hm Hk w. unfold bind. specialize (Hm w).
  destruct (m w) as [[a|e] w1]; simpl in *; [|exact Hm].
  eapply same_store_trans; [exact Hm|apply Hk].
Qed.

Lemma keeps_try {A} (body : Py A) (handler : exn -> Py A) :
  keeps_store body -> (forall e, keeps_store (handler e)) ->
  keeps_store (try_except body handler).
Proof.
  intros Hb Hh w. unfold try_except. specialize (Hb w).
  destruct (body w) as [[a|e] w1]; simpl in *; [exact Hb|].
  destruct (isinstance_Exception e); [|exact Hb].
  eapply same_store_trans; [exact Hb|apply Hh].
Qed.

Lemma keeps_getattr self name : keeps_store (getattr self name).
Proof.
  intros w. unfold getattr.
  destruct (heap w !! self) as [o|]; [destruct (obj_attrs o !! name)|];
    apply same_store_refl.
Qed.

Lemma keeps_lib {A} ev (f : Ext -> Result A * Ext) :
  is_request ev = true -> keeps_store (lib ev f).
Proof.
  intros Hev w. unfold lib. destruct (f (ext w)) as [r x].
  repeat split. exists [ev]. simpl. rewrite Hev. split; reflexivity.
Qed.

Lemma keeps_print s : keeps_store (print s).
Proof.
  intros w. destruct (same_store_refl w) as (_ & _ & _ & H). repeat split.
  exact H.
Qed.

Lemma keeps_input prompt : keeps_store (input prompt).
Proof.
  intros w. destruct (same_store_refl w) as (_ & _ & _ & H).
  unfold input. destruct w as [? ? i ? ? ? ?]. cbn -[readline] in *.
  destruct i; [|destruct (readline _)]; repeat split; exact H.
Qed.

Lemma keeps_index0 {A} (l : list A) : keeps_store (index0 l).
Proof. destruct l; [apply keeps_raise|apply keeps_ret]. Qed.

Lemma keeps_getitem d key : keeps_store (getitem d key).
Proof.
  unfold getitem. destruct (d !! key); [apply keeps_ret|apply keeps_raise].
Qed.

Lemma keeps_content_strip c : keeps_store (content_strip c).
Proof. destruct c; [apply keeps_ret|apply keeps_raise]. Qed.

Lemma keeps_chat_completions x : keeps_store (chat_completions x).
Proof. destruct x; first [apply keeps_ret|apply keeps_raise]. Qed.

Lemma keeps_callable x : keeps_store (callable x).
Proof. destruct x; first [apply keeps_ret|apply keeps_raise]. Qed.

Lemma keeps_create c req : keeps_store (create c req).
Proof. apply keeps_lib. reflexivity. Qed.

Lemma keeps_generate p req : keeps_store (generate p req).
Proof. apply keeps_lib. reflexivity. Qed.

Create HintDb keeps.
#[local] Hint Resolve keeps_ret keeps_raise keeps_getattr keeps_create
  keeps_generate keeps_print keeps_input keeps_index0 keeps_getitem
  keeps_content_strip keeps_chat_completions keeps_callable : keeps.

Ltac keeps :=
  repeat match goal with
    | |- keeps_store (try_except _ _) => apply keeps_try; [|intros ?]
    | |- keeps_store (bind _ _) => apply keeps_bind; [|intros ?]
    end;
  auto with keeps.

Lemma keeps_HumanAgent_call self obs : keeps_store (HumanAgent_call self obs).
Proof. unfold HumanAgent_call. keeps. Qed.

Lemma keeps_GPTAgent_call self obs : keeps_store (GPTAgent_call self obs).
Proof. unfold GPTAgent_call. keeps. Qed.

Lemma keeps_HFLocalAgent_call self obs :
  keeps_store (HFLocalAgent_call self obs).
Proof. unfold HFLocalAgent_call. keeps. Qed.

(** A call writes no attribute of any instance, no module attribute and no
    environment variable, and acquires no resource. *)
Lemma call_frame v self obs w : same_store w (snd (call_of v self obs w)).
Proof.
  destruct v; simpl;
    [apply keeps_HumanAgent_call|apply keeps_GPTAgent_call
    |apply keeps_HFLocalAgent_call].
Qed.

Lemma call_attr v self obs w l name :
  attr (snd (call_of v self obs w)) l name = attr w l name.
Proof.
  unfold attr. destruct (call_frame v self obs w) as [-> _]. reflexivity.
Qed.

(** A handler that returns turns every outcome of the body into a value,
    but for the exceptions that pass it by. *)
Lemma try_except_cases {A} (body : Py A) (f : exn -> A) w :
  (exists a, fst (try_except body (fun e => ret (f e)) w) = Ok a)
  \/ (exists e, fst (body w) = Raise e
                /\ isinstance_Exception e = false
                /\ fst (try_except body (fun e => ret (f e)) w) = Raise e).
Proof.
  unfold try_except, ret. destruct (body w) as [[a|e] w']; simpl; eauto.
  destruct (isinstance_Exception e) eqn:He; simpl; eauto.
Qed.
End Frames.

(** ** Constructors and calls, step by step *)

Section Runs.
Context {LT : LibTypes} {LO : LibOps}.
Implicit Types (w : World) (self l : loc) (v : variant).

Lemma alter_last {A} (f : A -> A) (l : list A) (x : A) :
  alter f (length l) (l ++ [x]) = l ++ [f x].
Proof.
  induction l as [|y l IH]; simpl; [reflexivity|].
  f_equal. exact IH.
Qed.

Lemma lookup_last {A} (l : list A) (x : A) :
  (l ++ [x]) !! length l = Some x.
Proof. induction l as [|y l IH]; simpl; [reflexivity|exact IH]. Qed.

Ltac unfold_init :=
  unfold construct, new_HumanAgent, new_GPTAgent, new_HFLocalAgent, new,
    HumanAgent_init, GPTAgent_init, HFLocalAgent_init, Agent_init,
    bind, ret, raise, getattr, setattr, alloc,
    os_getenv, set_openai_api_key, get_openai_api_key,
    OpenAI, pipeline, tokenizer_from_pretrained, model_from_pretrained, lib.

Ltac step :=
  repeat progress
    (cbn; unfold with_heap, with_ext, with_api_key; cbn;
     rewrite ?alter_last, ?lookup_last; cbn;
     rewrite ?lookup_insert_eq, ?lookup_insert_ne by done).

Ltac lib_case :=
  match goal with
  | |- context [AutoTokenizer_from_pretrained ?a ?b] =>
      destruct (AutoTokenizer_from_pretrained a b) as [[?|?] ?]
  | |- context [AutoModelForCausalLM_from_pretrained ?a ?b ?c] =>
      destruct (AutoModelForCausalLM_from_pretrained a b c) as [[?|?] ?]
  | |- context [transformers_pipeline ?a ?b ?c ?d] =>
      destruct (transformers_pipeline a b c d) as [[?|?] ?]
  | |- context [openai_OpenAI ?a ?b ?c] =>
      destruct (openai_OpenAI a b c) as [[?|?] ?]
  end.

Ltac new_object :=
  repeat split; eexists; split; [reflexivity|]; split; step; reflexivity.

(** Every constructor, whether it returns or raises, appends one object to
    the heap and leaves the rest of it and the environment alone; it returns
    the address of that object; only [GPTAgent] assigns the module
    attribute. *)
Lemma construct_spec v m q w :
  (exists o, heap (snd (construct v m q w)) = heap w ++ [o] /\ named m o)
  /\ match fst (construct v m q w) with
     | Ok self => self = length (heap w)
     | Raise _ => True
     end
  /\ environ (snd (construct v m q w)) = environ w
  /\ openai_api_key (snd (construct v m q w)) =
     match v with
     | Remote => environ w !! OPENAI_API_KEY
     | _ => openai_api_key w
     end.
Proof.
  destruct w as [env key i o h tr x]. destruct v; unfold_init; step.
  - new_object.
  - destruct (truthy (env !! OPENAI_API_KEY)); step;
      [lib_case; step|]; new_object.
  - lib_case; step;
      [destruct q; lib_case; step; [lib_case; step| |lib_case; step|]|];
      new_object.
Qed.

Lemma construct_attrs v m q w self w' :
  construct v m q w = (Ok self, w') ->
  attr w' self "model_name" = Some (VStr m)
  /\ attr w' self "agent_identifier" = Some (VStr m).
Proof.
  intros H. destruct (construct_spec v m q w) as ((o & Hh & Hm & Hi) & Hs & _).
  rewrite H in Hh, Hs. simpl in Hh, Hs. subst self.
  unfold attr. rewrite Hh, lookup_last. simpl. split; assumption.
Qed.

Lemma construct_others v m q w l :
  l < length (heap w) ->
  heap (snd (construct v m q w)) !! l = heap w !! l.
Proof.
  intros Hl. destruct (construct_spec v m q w) as ((o & -> & _) & _).
  apply lookup_app_l. exact Hl.
Qed.

(** A falsy credential stops [GPTAgent.__init__] before it reaches a
    library. *)
Lemma GPTAgent_rejects m w :
  truthy (environ w !! OPENAI_API_KEY) = false ->
  fst (new_GPTAgent m w) = Raise (ValueError key_not_found)
  /\ trace (snd (new_GPTAgent m w)) = trace w
  /\ ext (snd (new_GPTAgent m w)) = ext w.
Proof.
  intros H. destruct w as [env key i o h tr x]. simpl in H.
  unfold_init. step. rewrite H. step. repeat split.
Qed.

(** [HFLocalAgent.__init__] acquires tokenizer, model and pipeline, in this
    order, and stores them in the instance. *)
Lemma HFLocalAgent_acquires m q w self w' :
  new_HFLocalAgent m q w = (Ok self, w') ->
  exists t md p,
    attr w' self "tokenizer" = Some (VTokenizer t)
    /\ attr w' self "model" = Some (VModel md)
    /\ attr w' self "pipeline" = Some (VPipeline p)
    /\ trace w' = trace w ++
         [EvTokenizer m; EvModel m q;
          EvPipeline "text-generation" (VModel md) (VTokenizer t)].
Proof.
  destruct w as [env key i o h tr x]. unfold_init. step.
  lib_case; step; [|discriminate].
  destruct q; lib_case; step; try discriminate;
    lib_case; step; try discriminate;
    intros [= <- <-]; do 3 eexists; unfold attr; step;
    rewrite <- !app_assoc; repeat split.
Qed.

Lemma attr_getattr w self name x :
  attr w self name = Some x -> getattr self name w = (Ok x, w).
Proof.
  unfold attr, getattr. destruct (heap w !! self) as [o|]; simpl;
    [|discriminate].
  intros ->. reflexivity.
Qed.

Ltac unfold_call :=
  unfold GPTAgent_call, HFLocalAgent_call, try_except, bind, create, generate,
    lib, chat_completions, callable, index0, getitem, content_strip, ret,
    raise.

Lemma GPTAgent_call_run self obs w c model r x :
  attr w self "client" = Some (VClient c) ->
  attr w self "model_name" = Some model ->
  chat_completions_create c (chat_request model obs) (ext w) = (r, x) ->
  GPTAgent_call self obs w =
    (match r with
     | Ok response =>
         match choices response with
         | choice :: _ =>
             match message_content choice with
             | Some text => Ok (strip text)
             | None => Ok (error_occurred (no_attribute "NoneType" "strip"))
             end
         | [] => Ok (error_occurred (IndexError "list index out of range"))
         end
     | Raise e =>
         if isinstance_Exception e then Ok (error_occurred e) else Raise e
     end,
     with_ext (EvCreate c (chat_request model obs)) x w).
Proof.
  intros Hc Hm Hr. unfold_call.
  rewrite (attr_getattr _ _ _ _ Hc), (attr_getattr _ _ _ _ Hm), Hr.
  destruct r as [[[|[[text|]] rest]]|e]; try reflexivity.
  destruct (isinstance_Exception e); reflexivity.
Qed.

Lemma HFLocalAgent_call_run self obs w p r x :
  attr w self "pipeline" = Some (VPipeline p) ->
  pipeline_call p (pipeline_request obs) (ext w) = (r, x) ->
  HFLocalAgent_call self obs w =
    (match r with
     | Ok response =>
         match response with
         | first :: _ =>
             match first !! "generated_text" with
             | Some text => Ok (strip text)
             | None => Ok (error_occurred (KeyError "generated_text"))
             end
         | [] => Ok (error_occurred (IndexError "list index out of range"))
         end
     | Raise e =>
         if isinstance_Exception e then Ok (error_occurred e) else Raise e
     end,
     with_ext (EvGenerate p (pipeline_request obs)) x w).
Proof.
  intros Hp Hr. unfold_call. rewrite (attr_getattr _ _ _ _ Hp), Hr.
  destruct r as [[|first rest]|e]; [reflexivity| |].
  - destruct (first !! "generated_text"); reflexivity.
  - destruct (isinstance_Exception e); reflexivity.
Qed.

Lemma HumanAgent_call_run self obs w line rest :
  one_line line = true ->
  stdin w = line +:+ String newline rest ->
  HumanAgent_call self obs w =
    (Ok line,
     with_stdin rest
       (with_stdout
          ((stdout w +:+ obs +:+ String newline "")
           +:+ "Please enter the action: ") w)).
Proof.
  intros Hl Hs. destruct w as [env key i o h tr x]. simpl in Hs. subst i.
  unfold HumanAgent_call, bind, print, input. cbn -[readline].
  destruct line as [|c line].
  - reflexivity.
  - rewrite append_cons. rewrite <- append_cons.
    rewrite (readline_terminated _ _ Hl). reflexivity.
Qed.
(** *** Further facts about constructors and calls *)

Lemma attr_same_heap w1 w2 self name :
  heap w2 = heap w1 -> attr w2 self name = attr w1 self name.
Proof. unfold attr. intros ->. reflexivity. Qed.

(** X3: the constructor of [GPTAgent] raises [ValueError] for a falsy
    credential without calling a library; otherwise it constructs the client
    for the OpenRouter endpoint, which is its only library call, and returns
    the new instance or lets the exception of the client constructor
    through. *)
Theorem GPTAgent_construction_outcome m w :
  fst (new_GPTAgent m w) =
    (if truthy (environ w !! OPENAI_API_KEY) then
       match fst (openai_OpenAI openrouter (environ w) (ext w)) with
       | Ok _ => Ok (length (heap w))
       | Raise e => Raise e
       end
     else Raise (ValueError key_not_found))
  /\ trace (snd (new_GPTAgent m w)) =
     trace w ++ (if truthy (environ w !! OPENAI_API_KEY)
                 then [EvOpenAI openrouter] else []).
Proof.
  destruct w as [env key i o h tr x]. unfold_init. step.
  destruct (truthy (env !! OPENAI_API_KEY)); step.
  - lib_case; step; split; reflexivity.
  - split; [reflexivity|]. symmetry. apply app_nil_r.
Qed.

Lemma GPTAgent_constructed m w self w1 :
  new_GPTAgent m w = (Ok self, w1) ->
  exists c,
    attr w1 self "client" = Some (VClient c)
    /\ attr w1 self "model_name" = Some (VStr m)
    /\ fst (openai_OpenAI openrouter (environ w) (ext w)) = Ok c.
Proof.
  destruct w as [env key i o h tr x]. unfold_init. step.
  destruct (truthy (env !! OPENAI_API_KEY)); step; [|discriminate].
  lib_case; step; [|discriminate].
  intros [= <- <-]. eexists. unfold attr. step. repeat split.
Qed.

(** X4: an instance of [GPTAgent] constructed for model [m] sends, at every
    later call, exactly one request: to the client made at construction, for
    model [m], with the fixed system message followed by the observation as
    the user message, one candidate, no stop sequence and temperature 0.7. *)
Theorem GPTAgent_queries_constructed_model m w self w1 :
  new_GPTAgent m w = (Ok self, w1) ->
  exists c,
    fst (openai_OpenAI openrouter (environ w) (ext w)) = Ok c
    /\ forall obs w2,
         heap w2 = heap w1 ->
         trace (snd (GPTAgent_call self obs w2)) =
         trace w2 ++
           [EvCreate c
              {| req_model := VStr m;
                 req_messages :=
                   [ {| role := "system";
                        content := "You are a helpful assistant." |};
                     {| role := "user"; content := obs |} ];
                 req_n := 1;
                 req_stop := None;
                 req_temperature := 7 # 10 |}].
Proof.
  intros H. destruct (GPTAgent_constructed _ _ _ _ H) as (c & Hc & Hm & Ho).
  exists c. split; [exact Ho|]. intros obs w2 Hh.
  rewrite <- (attr_same_heap _ _ self "client" Hh) in Hc.
  rewrite <- (attr_same_heap _ _ self "model_name" Hh) in Hm.
  destruct (chat_completions_create c (chat_request (VStr m) obs) (ext w2))
    as [r x] eqn:Hr.
  rewrite (GPTAgent_call_run _ _ _ _ _ _ _ Hc Hm Hr). reflexivity.
Qed.

(** X5: an instance of [HFLocalAgent] remembers its [quantize] flag and
    runs, at every later call, exactly one generation: on the pipeline built
    at construction, with the observation as prompt, one sequence,
    temperature 0.7 and the prompt left out of the result. *)
Theorem HFLocalAgent_generates_with_constructed_pipeline m q w self w1 :
  new_HFLocalAgent m q w = (Ok self, w1) ->
  exists p,
    attr w1 self "pipeline" = Some (VPipeline p)
    /\ attr w1 self "quantize" = Some (VBool q)
    /\ forall obs w2,
         heap w2 = heap w1 ->
         trace (snd (HFLocalAgent_call self obs w2)) =
         trace w2 ++
           [EvGenerate p
              {| text_inputs := obs;
                 num_return_sequences := 1;
                 temperature := 7 # 10;
                 return_full_text := false |}].
Proof.
  intros H.
  assert (Hq : attr w1 self "quantize" = Some (VBool q)).
  { revert H. destruct w as [env key i o h tr x]. unfold_init. step.
    lib_case; step; [|discriminate].
    destruct q; lib_case; step; try discriminate;
      lib_case; step; try discriminate;
      intros [= <- <-]; unfold attr; step; reflexivity. }
  destruct (HFLocalAgent_acquires _ _ _ _ _ H) as (t & md & p & _ & _ & Hp & _).
  exists p. repeat split; [exact Hp|exact Hq|]. intros obs w2 Hh.
  rewrite <- (attr_same_heap _ _ self "pipeline" Hh) in Hp.
  destruct (pipeline_call p (pipeline_request obs) (ext w2)) as [r x] eqn:Hr.
  rewrite (HFLocalAgent_call_run _ _ _ _ _ _ Hp Hr). reflexivity.
Qed.

(** X6: the constructor of [HFLocalAgent] catches nothing and stops at the
    first acquisition that fails: an exception of the tokenizer loader
    leaves the constructor before the model is loaded, and an exception of
    the model loader before the pipeline is built. *)
Theorem HFLocalAgent_construction_fails_fast m q w e :
  (forall x,
     AutoTokenizer_from_pretrained m (ext w) = (Raise e, x) ->
     fst (new_HFLocalAgent m q w) = Raise e
     /\ trace (snd (new_HFLocalAgent m q w)) = trace w ++ [EvTokenizer m])
  /\ (forall t x1 x2,
        AutoTokenizer_from_pretrained m (ext w) = (Ok t, x1) ->
        AutoModelForCausalLM_from_pretrained m q x1 = (Raise e, x2) ->
        fst (new_HFLocalAgent m q w) = Raise e
        /\ trace (snd (new_HFLocalAgent m q w)) =
           trace w ++ [EvTokenizer m; EvModel m q]).
Proof.
  destruct w as [env key i o h tr x0]. split.
  - intros x Ht. unfold_init. step. cbn in Ht. rewrite Ht. step.
    split; reflexivity.
  - intros t x1 x2 Ht Hm. unfold_init. step. cbn in Ht. rewrite Ht. step.
    destruct q; step; rewrite Hm; step; rewrite <- app_assoc; split; reflexivity.
Qed.

(** X13: a constructed instance is of the class of its variant and has the
    attributes its constructor assigns, and no others. *)
Theorem constructed_attributes_exact v m q w self w' :
  construct v m q w = (Ok self, w') ->
  exists o,
    heap w' !! self = Some o
    /\ obj_class o = class_of v
    /\ dom (obj_attrs o) = attribute_names v.
Proof.
  assert (Hdom : forall (o : object) c (a : gmap string value) (s : gset string),
             o = Object c a -> c = class_of v -> dom a = s ->
             s = attribute_names v ->
             obj_class o = class_of v /\ dom (obj_attrs o) = attribute_names v).
  { intros o c a s -> -> Hd Hs. simpl. split; [reflexivity|congruence]. }
  destruct w as [env key i o h tr x]. destruct v; unfold_init; step.
  - intros [= <- <-]. eexists. split; [step; reflexivity|].
    eapply Hdom; [reflexivity..| |];
      [rewrite !dom_insert_L, dom_empty_L; reflexivity|set_solver].
  - destruct (truthy (env !! OPENAI_API_KEY)); step; [|discriminate].
    lib_case; step; [|discriminate].
    intros [= <- <-]. eexists. split; [step; reflexivity|].
    eapply Hdom; [reflexivity..| |];
      [rewrite !dom_insert_L, dom_empty_L; reflexivity|set_solver].
  - lib_case; step; [|discriminate].
    destruct q; lib_case; step; try discriminate;
      lib_case; step; try discriminate;
      intros [= <- <-]; eexists; (split; [step; reflexivity|]);
      (eapply Hdom; [reflexivity..| |];
       [rewrite !dom_insert_L, dom_empty_L; reflexivity|set_solver]).
Qed.
(** *** Outcomes of a call in an arbitrary state *)





(** *** What the constructors acquire *)

Lemma GPTAgent_acquires m w self w1 :
  new_GPTAgent m w = (Ok self, w1) ->
  exists c,
    attr w1 self "client" = Some (VClient c)
    /\ trace w1 = trace w ++ [EvOpenAI openrouter]
    /\ openai_api_key w1 = environ w !! OPENAI_API_KEY.
Proof.
  destruct w as [env key i o h tr x]. unfold_init. step.
  destruct (truthy (env !! OPENAI_API_KEY)); step; [|discriminate].
  lib_case; step; [|discriminate].
  intros [= <- <-]. eexists. unfold attr. step. repeat split.
Qed.

Lemma HumanAgent_constructs m w :
  fst (new_HumanAgent m w) = Ok (length (heap w))
  /\ acquires_nothing (new_HumanAgent m) w
  /\ stdin (snd (new_HumanAgent m w)) = stdin w
  /\ ext (snd (new_HumanAgent m w)) = ext w.
Proof.
  destruct w as [env key i o h tr x]. unfold acquires_nothing.
  unfold_init. step. repeat split.
  exists []. split; [symmetry; apply app_nil_r|reflexivity].
Qed.

Lemma construct_identifier v m q w :
  attr (snd (construct v m q w)) (length (heap w)) "model_name"
  = Some (VStr m)
  /\ attr (snd (construct v m q w)) (length (heap w)) "agent_identifier"
     = Some (VStr m).
Proof.
  destruct (construct_spec v m q w) as ((o & Hh & Hm & Hi) & _).
  unfold attr. rewrite Hh, lookup_last. simpl. split; assumption.
Qed.

Lemma construct_address v m q w self w' :
  construct v m q w = (Ok self, w') -> self = length (heap w).
Proof.
  intros H. destruct (construct_spec v m q w) as (_ & Hs & _).
  rewrite H in Hs. exact Hs.
Qed.
End Runs.

(** ** What the outcome of a call depends on *)

Section Dependence.
Context {LT : LibTypes} {LO : LibOps}.
Variable self : loc.

Lemma agree_refl w : agree self w w.
Proof. repeat split. Qed.

Lemma respects_ret {A} (a : A) : respects self (ret a).
Proof. intros w1 w2 H. split; [reflexivity|exact H]. Qed.

Lemma respects_raise {A} (e : exn) : respects self (raise (A := A) e).
Proof. intros w1 w2 H. split; [reflexivity|exact H]. Qed.

Lemma respects_bind {A B} (m : Py A) (k : A -> Py B) :
  respects self m -> (forall a, respects self (k a)) ->
  respects self (bind m k).
Proof.
  intros Hm Hk w1 w2 H. destruct (Hm w1 w2 H) as [Hf Hs]. unfold bind.
  destruct (m w1) as [[a1|e1] u1], (m w2) as [[a2|e2] u2]; simpl in *;
    try discriminate.
  - injection Hf as <-. apply Hk. exact Hs.
  - injection Hf as <-. split; [reflexivity|exact Hs].
Qed.

Lemma respects_try {A} (body : Py A) (handler : exn -> Py A) :
  respects self body -> (forall e, respects self (handler e)) ->
  respects self (try_except body handler).
Proof.
  intros Hb Hh w1 w2 H. destruct (Hb w1 w2 H) as [Hf Hs]. unfold try_except.
  destruct (body w1) as [[a1|e1] u1], (body w2) as [[a2|e2] u2]; simpl in *;
    try discriminate.
  - split; assumption.
  - injection Hf as <-. destruct (isinstance_Exception e1).
    + apply Hh. exact Hs.
    + split; [reflexivity|exact Hs].
Qed.

Lemma respects_getattr name : respects self (getattr self name).
Proof.
  intros w1 w2 H. pose proof H as (Hh & _). unfold getattr. rewrite Hh.
  destruct (heap w2 !! self) as [o|]; [destruct (obj_attrs o !! name)|];
    split; solve [reflexivity|exact H].
Qed.

Lemma respects_lib {A} ev (f : Ext -> Result A * Ext) :
  respects self (lib ev f).
Proof.
  intros w1 w2 (Hh & Hi & Hx). unfold lib. rewrite Hx.
  destruct (f (ext w2)) as [r x]. repeat split; assumption.
Qed.

Lemma respects_print s : respects self (print s).
Proof. intros w1 w2 (Hh & Hi & Hx). repeat split; assumption. Qed.

Lemma respects_input prompt : respects self (input prompt).
Proof.
  intros w1 w2 (Hh & Hi & Hx). unfold input.
  destruct w1 as [? ? i1 ? ? ? ?], w2 as [? ? i2 ? ? ? ?].
  cbn -[readline] in *. subst i1.
  destruct i2 as [|c i2]; [repeat split; assumption|].
  destruct (readline (String c i2)) as [l r]. repeat split; assumption.
Qed.

Lemma respects_index0 {A} (l : list A) : respects self (index0 l).
Proof. destruct l; [apply respects_raise|apply respects_ret]. Qed.

Lemma respects_getitem d key : respects self (getitem d key).
Proof.
  unfold getitem.
  destruct (d !! key); [apply respects_ret|apply respects_raise].
Qed.

Lemma respects_content_strip c : respects self (content_strip c).
Proof. destruct c; [apply respects_ret|apply respects_raise]. Qed.

Lemma respects_chat_completions x : respects self (chat_completions x).
Proof. destruct x; first [apply respects_ret|apply respects_raise]. Qed.

Lemma respects_callable x : respects self (callable x).
Proof. destruct x; first [apply respects_ret|apply respects_raise]. Qed.

Create HintDb respects.
#[local] Hint Resolve respects_ret respects_raise respects_getattr
  respects_lib respects_print respects_input respects_index0
  respects_getitem respects_content_strip respects_chat_completions
  respects_callable : respects.

Ltac respects :=
  repeat match goal with
    | |- respects _ (try_except _ _) => apply respects_try; [|intros ?]
    | |- respects _ (bind _ _) => apply respects_bind; [|intros ?]
    end;
  auto with respects.

(** The outcome of a call is a function of the attributes of the called
    instance, of what waits on standard input and of the state of the
    libraries: it depends neither on another instance, nor on
    [openai.api_key], nor on the environment. *)
Lemma respects_call v obs : respects self (call_of v self obs).
Proof.
  destruct v; simpl.
  - unfold HumanAgent_call. respects.
  - unfold GPTAgent_call, create. respects.
  - unfold HFLocalAgent_call, generate. respects.
Qed.
End Dependence.

(** ** The agents' contract *)

Section Contract.
Context {LT : LibTypes} {LO : LibOps}.
Implicit Types (w : World) (self l : loc) (v : variant).



(** C3: constructing the remote variant while the credential variable is not
    set raises [ValueError] out of the constructor, and no library (hence no
    network) call has been made by then. *)
Theorem GPTAgent_requires_credential m w :
  environ w !! OPENAI_API_KEY = None ->
  fst (new_GPTAgent m w) = Raise (ValueError key_not_found)
  /\ trace (snd (new_GPTAgent m w)) = trace w
  /\ ext (snd (new_GPTAgent m w)) = ext w.
Proof. intros H. apply GPTAgent_rejects. rewrite H. reflexivity. Qed.

(** C4: a call of the interactive variant writes the observation to standard
    output, reads one line from standard input and returns that line as it
    is, without its terminator. *)
Theorem HumanAgent_call_returns_line self obs w line rest :
  one_line line = true ->
  stdin w = line +:+ String newline rest ->
  fst (HumanAgent_call self obs w) = Ok line
  /\ stdout (snd (HumanAgent_call self obs w)) =
     (stdout w +:+ obs +:+ String newline "") +:+ "Please enter the action: "
  /\ stdin (snd (HumanAgent_call self obs w)) = rest.
Proof.
  intros Hl Hs. rewrite (HumanAgent_call_run _ _ _ _ _ Hl Hs).
  repeat split.
Qed.

(** C5: on a successful call the remote variant returns the text of the
    first candidate of the one it asked for, and the local variant the text
    of the first generated sequence of the one it asked for, without the
    prompt; in both cases with the whitespace at the two ends, and nothing
    else, removed. *)
Theorem call_returns_trimmed_text v self obs w text :
  backend_returns v self obs w text ->
  fst (call_of v self obs w) = Ok (strip text)
  /\ trimmed (strip text) = true
  /\ (exists a b, all_space a = true /\ all_space b = true
                  /\ text = a +:+ strip text +:+ b)
  /\ exists ev, trace (snd (call_of v self obs w)) = trace w ++ [ev]
                /\ asks_for_one v obs ev = true.
Proof.
  intros H. repeat split; [|apply strip_trimmed|apply strip_decompose|];
    destruct v; simpl in *; try contradiction.
  - destruct H as (c & model & x & choice & rest & Hc & Hm & Hr & Ht).
    rewrite (GPTAgent_call_run _ _ _ _ _ _ _ Hc Hm Hr). simpl.
    rewrite Ht. reflexivity.
  - destruct H as (p & x & first & rest & Hp & Hr & Ht).
    rewrite (HFLocalAgent_call_run _ _ _ _ _ _ Hp Hr). simpl.
    rewrite Ht. reflexivity.
  - destruct H as (c & model & x & choice & rest & Hc & Hm & Hr & Ht).
    rewrite (GPTAgent_call_run _ _ _ _ _ _ _ Hc Hm Hr). simpl.
    eexists. split; reflexivity.
  - destruct H as (p & x & first & rest & Hp & Hr & Ht).
    rewrite (HFLocalAgent_call_run _ _ _ _ _ _ Hp Hr). simpl.
    eexists. split; [reflexivity|]. simpl. apply String.eqb_refl.
Qed.

(** C6 (amended): a call of any variant leaves every attribute of every
    instance as it was, assigns no module attribute, and asks the libraries
    for nothing but the request itself.  The stateful steps are two of the
    constructors: the one of the local variant acquires tokenizer, model and
    pipeline once and stores them in the instance, and the one of the remote
    variant acquires a client, stores it in the instance and assigns
    [openai.api_key]; the constructor of the interactive variant acquires
    nothing. *)
Theorem call_stores_nothing v self obs w :
  heap (snd (call_of v self obs w)) = heap w
  /\ (forall l name, attr (snd (call_of v self obs w)) l name = attr w l name)
  /\ openai_api_key (snd (call_of v self obs w)) = openai_api_key w
  /\ (exists evs, trace (snd (call_of v self obs w)) = trace w ++ evs
                  /\ forallb is_request evs = true)
  /\ (forall m q l w1,
        new_HFLocalAgent m q w = (Ok l, w1) ->
        exists t md p,
          attr w1 l "tokenizer" = Some (VTokenizer t)
          /\ attr w1 l "model" = Some (VModel md)
          /\ attr w1 l "pipeline" = Some (VPipeline p)
          /\ trace w1 = trace w ++
               [EvTokenizer m; EvModel m q;
                EvPipeline "text-generation" (VModel md) (VTokenizer t)])
  /\ (forall m l w1,
        new_GPTAgent m w = (Ok l, w1) ->
        exists c,
          attr w1 l "client" = Some (VClient c)
          /\ trace w1 = trace w ++ [EvOpenAI openrouter]
          /\ openai_api_key w1 = environ w !! OPENAI_API_KEY)
  /\ (forall m, acquires_nothing (new_HumanAgent m) w).
Proof.
  destruct (call_frame v self obs w) as (Hh & Hk & _ & Ht).
  split; [exact Hh|]. split; [intros l name; apply call_attr|].
  split; [exact Hk|]. split; [exact Ht|].
  split; [intros m q l w1; apply HFLocalAgent_acquires|].
  split; [intros m l w1; apply GPTAgent_acquires|].
  intros m. apply (HumanAgent_constructs m w).
Qed.

(** C7 (amended): an instance that was constructed stores the model
    identifier it was given, so that the stored identifier is non-empty
    exactly when the constructor's argument is; every call leaves the stored
    identifier of every instance as it was. *)
Theorem identifier_is_constructor_argument v m q w self w' :
  construct v m q w = (Ok self, w') ->
  attr w' self "model_name" = Some (VStr m)
  /\ identifier_nonempty w' self = negb (String.eqb m "")
  /\ (forall v2 self2 obs w2 l,
        identifier_nonempty (snd (call_of v2 self2 obs w2)) l
        = identifier_nonempty w2 l)
  /\ (forall v2 self2 obs w2 l,
        attr (snd (call_of v2 self2 obs w2)) l "model_name"
        = attr w2 l "model_name").
Proof.
  intros H. destruct (construct_attrs _ _ _ _ _ _ H) as [Hm _].
  repeat split; [exact Hm| | |].
  - unfold identifier_nonempty. rewrite Hm. reflexivity.
  - intros v2 self2 obs w2 l. unfold identifier_nonempty.
    rewrite call_attr. reflexivity.
  - intros v2 self2 obs w2 l. apply call_attr.
Qed.

(** C8 (amended): constructing an instance or calling one leaves the
    attributes of every other instance as they were, and what a call of an
    instance returns or raises depends only on the attributes of that
    instance, on what waits on standard input and on the state of the
    libraries.  So a step of one instance leaves the behaviour of another
    unchanged as long as it leaves standard input and the libraries alone,
    as the construction of an interactive instance does; the standard
    streams and the libraries are shared by all instances of the process.
    The module attribute [openai.api_key] is shared too: the constructor of
    the remote variant assigns it the value of the credential variable, also
    when it then raises, but no call reads it. *)
Theorem instances_keep_their_attributes l w :
  l < length (heap w) ->
  (forall v m q, heap (snd (construct v m q w)) !! l = heap w !! l)
  /\ (forall v self obs, heap (snd (call_of v self obs w)) !! l = heap w !! l)
  /\ (forall v self obs,
        openai_api_key (snd (call_of v self obs w)) = openai_api_key w)
  /\ (forall v m q,
        openai_api_key (snd (construct v m q w)) =
        match v with
        | Remote => environ w !! OPENAI_API_KEY
        | _ => openai_api_key w
        end)
  /\ (forall v obs w2,
        agree l w w2 ->
        fst (call_of v l obs w2) = fst (call_of v l obs w))
  /\ (forall v m, undisturbed (new_HumanAgent m) v l w).
Proof.
  intros Hl. repeat split.
  - intros v m q. apply construct_others. exact Hl.
  - intros v self obs. destruct (call_frame v self obs w) as [-> _].
    reflexivity.
  - intros v self obs. apply (call_frame v self obs w).
  - intros v m q. apply (construct_spec v m q w).
  - intros v obs w2 H. symmetry. apply (respects_call l v obs w w2 H).
  - intros v m obs. symmetry.
    apply (respects_call l v obs w (snd (new_HumanAgent m w))).
    destruct (HumanAgent_constructs m w) as (_ & _ & Hi & Hx).
    split; [|split]; symmetry; [|exact Hi|exact Hx].
    apply (construct_others Interactive m false w l Hl).
Qed.

(** C9: the constructor of the remote variant raises the same [ValueError]
    for every falsy value of the credential variable, the empty string
    included as well as the unset variable, again before any library call. *)
Theorem GPTAgent_rejects_falsy_credential m w :
  truthy (environ w !! OPENAI_API_KEY) = false ->
  fst (new_GPTAgent m w) = Raise (ValueError key_not_found)
  /\ trace (snd (new_GPTAgent m w)) = trace w.
Proof.
  intros H. destruct (GPTAgent_rejects m w H) as (Hr & Ht & _).
  split; assumption.
Qed.

(** C10: the construction of an instance of any variant with model
    identifier [m] stores [m] in the attributes [model_name] and
    [agent_identifier] of the new instance, whether or not the rest of the
    constructor then succeeds; the instance a constructor returns is that
    one, so that both of its attributes hold [m] and are equal; and the
    constructor of the interactive variant always returns. *)
Theorem construct_stores_identifier_twice v m q w :
  attr (snd (construct v m q w)) (length (heap w)) "model_name"
  = Some (VStr m)
  /\ attr (snd (construct v m q w)) (length (heap w)) "agent_identifier"
     = Some (VStr m)
  /\ (forall self w',
        construct v m q w = (Ok self, w') ->
        self = length (heap w)
        /\ attr w' self "model_name" = Some (VStr m)
        /\ attr w' self "agent_identifier" = Some (VStr m)
        /\ attr w' self "model_name" = attr w' self "agent_identifier")
  /\ fst (construct Interactive m q w) = Ok (length (heap w)).
Proof.
  destruct (construct_identifier v m q w) as [Hm Hi].
  split; [exact Hm|]. split; [exact Hi|]. split.
  - intros self w' H. destruct (construct_attrs _ _ _ _ _ _ H) as [Hm' Hi'].
    split; [exact (construct_address _ _ _ _ _ _ H)|].
    split; [exact Hm'|]. split; [exact Hi'|]. rewrite Hm', Hi'. reflexivity.
  - apply (HumanAgent_constructs m w).
Qed.
End Contract.

(** ** Beyond the contract: edge cases and composition *)

Section Edges.
Context {LT : LibTypes} {LO : LibOps}.
Implicit Types (w : World) (self l : loc) (v : variant).

(** *** Steps that respect a preorder on states *)

Section Preorder.
Variable R : World -> World -> Prop.
Hypothesis R_refl : forall w, R w w.
Hypothesis R_trans : forall w1 w2 w3, R w1 w2 -> R w2 w3 -> R w1 w3.

Lemma preserves_ret {A} (a : A) : preserves R (ret a).
Proof. intros w. apply R_refl. Qed.

Lemma preserves_raise {A} (e : exn) : preserves R (raise (A := A) e).
Proof. intros w. apply R_refl. Qed.

Lemma preserves_bind {A B} (m : Py A) (k : A -> Py B) :
  preserves R m -> (forall a, preserves R (k a)) -> preserves R (bind m k).
Proof.
  intros Hm Hk w. unfold bind. specialize (Hm w).
  destruct (m w) as [[a|e] w1]; simpl in *; [|exact Hm].
  eapply R_trans; [exact Hm|apply Hk].
Qed.

Lemma preserves_try {A} (body : Py A) (handler : exn -> Py A) :
  preserves R body -> (forall e, preserves R (handler e)) ->
  preserves R (try_except body handler).
Proof.
  intros Hb Hh w. unfold try_except. specialize (Hb w).
  destruct (body w) as [[a|e] w1]; simpl in *; [exact Hb|].
  destruct (isinstance_Exception e); [|exact Hb].
  eapply R_trans; [exact Hb|apply Hh].
Qed.

Lemma preserves_getattr self name : preserves R (getattr self name).
Proof.
  intros w. unfold getattr.
  destruct (heap w !! self) as [o|]; [destruct (obj_attrs o !! name)|];
    apply R_refl.
Qed.

Lemma preserves_pure {A} (m : Py A) :
  (forall w, snd (m w) = w) -> preserves R m.
Proof. intros H w. rewrite H. apply R_refl. Qed.
End Preorder.

Lemma same_streams_refl w : same_streams w w.
Proof. split; reflexivity. Qed.

Lemma same_streams_trans w1 w2 w3 :
  same_streams w1 w2 -> same_streams w2 w3 -> same_streams w1 w3.
Proof. intros [H1 H2] [K1 K2]. split; congruence. Qed.

Lemma streams_lib {A} ev (f : Ext -> Result A * Ext) :
  preserves same_streams (lib ev f).
Proof. intros w. unfold lib. destruct (f (ext w)). split; reflexivity. Qed.

Ltac streams :=
  repeat match goal with
    | |- preserves _ (try_except _ _) =>
        apply (preserves_try _ same_streams_trans);
        [|intros ?]
    | |- preserves _ (bind _ _) =>
        apply (preserves_bind _ same_streams_trans);
        [|intros ?]
    | |- preserves _ (getattr _ _) =>
        apply (preserves_getattr _ same_streams_refl)
    | |- preserves _ (create _ _) => apply streams_lib
    | |- preserves _ (generate _ _) => apply streams_lib
    | |- preserves _ _ =>
        apply (preserves_pure _ same_streams_refl); intros ?;
        repeat case_match; reflexivity
    end.

(** X10: a call of the remote or of the local variant neither reads
    standard input nor writes standard output, whatever happens to the
    request. *)
Theorem model_calls_leave_streams_alone v self obs w :
  v <> Interactive ->
  stdin (snd (call_of v self obs w)) = stdin w
  /\ stdout (snd (call_of v self obs w)) = stdout w.
Proof.
  intros Hv.
  assert (H : preserves same_streams (call_of v self obs)).
  { destruct v; [contradiction| |]; simpl.
    - unfold GPTAgent_call, chat_completions, index0, content_strip. streams.
    - unfold HFLocalAgent_call, callable, index0, getitem. streams. }
  exact (H w).
Qed.

(** X1: a completion without candidates, or whose first candidate has no
    text, does not make [GPTAgent.__call__] raise: the call returns the
    message of the [IndexError], resp. of the [AttributeError], behind
    "An error occurred: ". *)
Theorem GPTAgent_call_malformed_response self obs w c model response x :
  attr w self "client" = Some (VClient c) ->
  attr w self "model_name" = Some model ->
  chat_completions_create c (chat_request model obs) (ext w)
  = (Ok response, x) ->
  (choices response = [] ->
   fst (GPTAgent_call self obs w)
   = Ok "An error occurred: list index out of range")
  /\ (forall rest,
        choices response = {| message_content := None |} :: rest ->
        fst (GPTAgent_call self obs w)
        = Ok "An error occurred: 'NoneType' object has no attribute 'strip'").
Proof.
  intros Hc Hm Hr. rewrite (GPTAgent_call_run _ _ _ _ _ _ _ Hc Hm Hr).
  split.
  - intros ->. reflexivity.
  - intros rest ->. reflexivity.
Qed.

(** X2: a generation result that is empty, or whose first entry lacks the
    key [generated_text], does not make [HFLocalAgent.__call__] raise: the
    call returns "An error occurred: " followed by the message of the
    [IndexError], resp. by the quoted key, which is how a [KeyError]
    prints. *)
Theorem HFLocalAgent_call_malformed_response self obs w p response x :
  attr w self "pipeline" = Some (VPipeline p) ->
  pipeline_call p (pipeline_request obs) (ext w) = (Ok response, x) ->
  (response = [] ->
   fst (HFLocalAgent_call self obs w)
   = Ok "An error occurred: list index out of range")
  /\ (forall first rest,
        response = first :: rest -> first !! "generated_text" = None ->
        fst (HFLocalAgent_call self obs w)
        = Ok "An error occurred: 'generated_text'").
Proof.
  intros Hp Hr. rewrite (HFLocalAgent_call_run _ _ _ _ _ _ Hp Hr).
  split.
  - intros ->. reflexivity.
  - intros first rest -> Hk. simpl. rewrite Hk. reflexivity.
Qed.

(** X7: two calls of [HumanAgent.__call__], on the same instance or on two
    instances, read successive lines of the one standard input. *)
Theorem HumanAgent_calls_read_successive_lines
    self1 self2 obs1 obs2 w line1 line2 rest :
  one_line line1 = true -> one_line line2 = true ->
  stdin w = line1 +:+ String newline (line2 +:+ String newline rest) ->
  fst (HumanAgent_call self1 obs1 w) = Ok line1
  /\ fst (HumanAgent_call self2 obs2 (snd (HumanAgent_call self1 obs1 w)))
     = Ok line2
  /\ stdin (snd (HumanAgent_call self2 obs2
                   (snd (HumanAgent_call self1 obs1 w)))) = rest.
Proof.
  intros H1 H2 Hs. rewrite (HumanAgent_call_run _ _ _ _ _ H1 Hs).
  split; [reflexivity|]. cbn [snd].
  erewrite (HumanAgent_call_run self2 obs2 _ line2 rest H2); [|reflexivity].
  split; reflexivity.
Qed.

(** X8: a last line without terminator is still returned by
    [HumanAgent.__call__] and exhausts standard input; the call after it
    writes its observation and the prompt and then raises [EOFError]. *)
Theorem HumanAgent_call_end_of_input self obs w line :
  line <> "" -> one_line line = true -> stdin w = line ->
  fst (HumanAgent_call self obs w) = Ok line
  /\ stdin (snd (HumanAgent_call self obs w)) = ""
  /\ forall self2 obs2,
       fst (HumanAgent_call self2 obs2 (snd (HumanAgent_call self obs w)))
       = Raise (EOFError "EOF when reading a line")
       /\ stdout (snd (HumanAgent_call self2 obs2
                         (snd (HumanAgent_call self obs w))))
          = (stdout (snd (HumanAgent_call self obs w))
             +:+ obs2 +:+ String newline "")
            +:+ "Please enter the action: ".
Proof.
  intros Hne Hl Hs. destruct w as [env key i o h tr x]. simpl in Hs. subst i.
  unfold HumanAgent_call, bind, print, input. cbn -[readline].
  destruct line as [|c line]; [contradiction|].
  rewrite (readline_unterminated _ Hl). cbn. repeat split.
Qed.

(** X9: the action returned by [HumanAgent.__call__] never contains a line
    feed. *)
Theorem HumanAgent_action_is_one_line self obs w action :
  fst (HumanAgent_call self obs w) = Ok action -> one_line action = true.
Proof.
  destruct w as [env key i o h tr x].
  unfold HumanAgent_call, bind, print, input. cbn -[readline].
  destruct i as [|c i]; [discriminate|].
  pose proof (readline_one_line (String c i)) as H.
  destruct (readline (String c i)) as [l r]. simpl in *.
  intros [= <-]. exact H.
Qed.

(** X11: when the text that comes back consists of whitespace only, the
    remote and the local variant return the empty string as action, not an
    error. *)
Theorem whitespace_only_text_gives_empty_action v self obs w text :
  backend_returns v self obs w text -> all_space text = true ->
  fst (call_of v self obs w) = Ok "".
Proof.
  intros H Hs. rewrite <- (strip_all_space _ Hs).
  destruct v; simpl in *; [contradiction| |].
  - destruct H as (c & model & x & choice & rest & Hc & Hm & Hr & Ht).
    rewrite (GPTAgent_call_run _ _ _ _ _ _ _ Hc Hm Hr). simpl.
    rewrite Ht. reflexivity.
  - destruct H as (p & x & first & rest & Hp & Hr & Ht).
    rewrite (HFLocalAgent_call_run _ _ _ _ _ _ Hp Hr). simpl.
    rewrite Ht. reflexivity.
Qed.


(** X14: however many calls are made, on whichever instances and with
    whatever outcome, every attribute of every instance, the module
    attribute [openai.api_key] and the environment stay as they were, and
    no library is asked for anything but requests. *)
Theorem calls_in_sequence_keep_store cs w :
  same_store w (after_calls cs w)
  /\ forall l name, attr (after_calls cs w) l name = attr w l name.
Proof.
  assert (H : same_store w (after_calls cs w)).
  { revert w. induction cs as [|[[v self] obs] cs IH]; intros w; simpl.
    - apply same_store_refl.
    - eapply same_store_trans; [apply call_frame|apply IH]. }
  split; [exact H|]. intros l name. unfold attr.
  destruct H as [-> _]. reflexivity.
Qed.
End Edges.

(** ** Runs on the mocked libraries *)

Import Mock.

Example human_returns_hello :
  fst (HumanAgent_call 0 "Your move." (human ("hello" +:+ lf))) = Ok "hello".
Proof. vm_compute. reflexivity. Qed.

Example remote_trims_completion :
  fst (GPTAgent_call 0 "Your move." (remote [ReplyText "  e2e4 "])) = Ok "e2e4".
Proof. vm_compute. reflexivity. Qed.

Example local_trims_sequence :
  fst (HFLocalAgent_call 0 "Your move." (local [ReplyText (lf +:+ "e2e4" +:+ lf)]))
  = Ok "e2e4".
Proof. vm_compute. reflexivity. Qed.

Example local_renders_failure :
  fst (HFLocalAgent_call 0 "Your move."
         (local [ReplyFail (Exn "RuntimeError" "CUDA out of memory")]))
  = Ok "An error occurred: CUDA out of memory".
Proof. vm_compute. reflexivity. Qed.





Lemma GPTAgent_requires_credential_witness :
  environ (world None "" []) !! OPENAI_API_KEY = None
  /\ fst (new_GPTAgent "gpt-4o" (world None "" []))
     = Raise (ValueError key_not_found).
Proof.
  split; [reflexivity|].
  apply (GPTAgent_requires_credential "gpt-4o" (world None "" [])).
  reflexivity.
Defined.

Lemma HumanAgent_call_returns_line_witness :
  one_line "hello" = true
  /\ stdin (human ("hello" +:+ lf)) = "hello" +:+ String newline ""
  /\ fst (HumanAgent_call 0 "Your move." (human ("hello" +:+ lf))) = Ok "hello".
Proof.
  split; [reflexivity|]. split; [reflexivity|].
  apply (HumanAgent_call_returns_line 0 "Your move."
           (human ("hello" +:+ lf)) "hello" ""); reflexivity.
Defined.

Lemma call_returns_trimmed_text_witness :
  backend_returns Local 0 "Your move." (local [ReplyText "  e2e4 "]) "  e2e4 "
  /\ fst (call_of Local 0 "Your move." (local [ReplyText "  e2e4 "]))
     = Ok "e2e4".
Proof.
  assert (H : backend_returns Local 0 "Your move."
                (local [ReplyText "  e2e4 "]) "  e2e4 ").
  { exists "text-generation", [], {[ "generated_text" := "  e2e4 " ]}, [].
    repeat split; vm_compute; reflexivity. }
  split; [exact H|].
  exact (proj1 (call_returns_trimmed_text Local 0 "Your move." _ _ H)).
Defined.

Lemma GPTAgent_construction_is_stateful :
  attr (remote []) 0 "client" = Some (VClient openrouter)
  /\ trace (remote []) = [EvOpenAI openrouter]
  /\ openai_api_key (remote []) = Some "sk-test"
  /\ ~ acquires_nothing (construct Remote "gpt-4o" false)
        (world (Some "sk-test") "" []).
Proof.
  split; [vm_compute; reflexivity|]. split; [vm_compute; reflexivity|].
  split; [vm_compute; reflexivity|].
  intros [H _]. vm_compute in H. discriminate H.
Qed.

Lemma call_stores_nothing_witness :
  new_HFLocalAgent "gpt2" false (world None "" []) = (Ok 0, local [])
  /\ exists t md p,
       attr (local []) 0 "tokenizer" = Some (VTokenizer t)
       /\ attr (local []) 0 "model" = Some (VModel md)
       /\ attr (local []) 0 "pipeline" = Some (VPipeline p)
       /\ trace (local []) = trace (world None "" []) ++
            [EvTokenizer "gpt2"; EvModel "gpt2" false;
             EvPipeline "text-generation" (VModel md) (VTokenizer t)].
Proof.
  split; [vm_compute; reflexivity|].
  apply (call_stores_nothing Local 0 "Your move." (world None "" [])).
  vm_compute; reflexivity.
Defined.

Lemma empty_identifier_accepted :
  fst (construct Interactive "" false (world None "" [])) = Ok 0
  /\ identifier_nonempty
       (snd (construct Interactive "" false (world None "" []))) 0 = false.
Proof. split; vm_compute; reflexivity. Qed.

Lemma identifier_is_constructor_argument_witness :
  construct Remote "gpt-4o" false (world (Some "sk-test") "" [])
  = (Ok 0, remote [])
  /\ identifier_nonempty (remote []) 0 = true.
Proof.
  assert (H : construct Remote "gpt-4o" false (world (Some "sk-test") "" [])
              = (Ok 0, remote [])) by (vm_compute; reflexivity).
  split; [exact H|].
  exact (proj1 (proj2 (identifier_is_constructor_argument _ _ _ _ _ _ H))).
Defined.

Lemma instances_share_process_state :
  (fst (call_of Interactive 1 "Your move."
          (two_humans ("e2e4" +:+ lf +:+ "d2d4" +:+ lf))) = Ok "e2e4"
   /\ fst (call_of Interactive 1 "Your move."
             (snd (call_of Interactive 0 "Your move."
                     (two_humans ("e2e4" +:+ lf +:+ "d2d4" +:+ lf)))))
      = Ok "d2d4"
   /\ ~ undisturbed (call_of Interactive 0 "Your move.") Interactive 1
         (two_humans ("e2e4" +:+ lf +:+ "d2d4" +:+ lf)))
  /\ (openai_api_key rotated = Some "sk-test"
      /\ openai_api_key (snd (new_GPTAgent "gpt-4o-mini" rotated))
         = Some "sk-other"
      /\ ~ shares_nothing (new_GPTAgent "gpt-4o-mini") rotated).
Proof.
  split; (split; [vm_compute; reflexivity|]);
    (split; [vm_compute; reflexivity|]).
  - intros H. specialize (H "Your move."). vm_compute in H. discriminate H.
  - intros H. vm_compute in H. discriminate H.
Qed.

Lemma instances_keep_their_attributes_witness :
  0 < length (heap rotated)
  /\ heap (snd (construct Remote "gpt-4o-mini" false rotated)) !! 0
     = heap rotated !! 0.
Proof.
  assert (H : 0 < length (heap rotated)) by (vm_compute; lia).
  split; [exact H|].
  exact (proj1 (instances_keep_their_attributes 0 rotated H)
           Remote "gpt-4o-mini" false).
Defined.

Lemma GPTAgent_rejects_falsy_credential_witness :
  environ (world (Some "") "" []) !! OPENAI_API_KEY = Some ""
  /\ truthy (environ (world (Some "") "" []) !! OPENAI_API_KEY) = false
  /\ fst (new_GPTAgent "gpt-4o" (world (Some "") "" []))
     = Raise (ValueError key_not_found).
Proof.
  split; [vm_compute; reflexivity|].
  assert (H : truthy (environ (world (Some "") "" []) !! OPENAI_API_KEY) = false)
    by (vm_compute; reflexivity).
  split; [exact H|].
  exact (proj1 (GPTAgent_rejects_falsy_credential "gpt-4o" _ H)).
Defined.

Lemma construct_stores_identifier_twice_witness :
  (fst (construct Interactive "human" false (world None "" [])) = Ok 0
   /\ attr (human "") 0 "model_name" = Some (VStr "human")
   /\ attr (human "") 0 "agent_identifier" = Some (VStr "human"))
  /\ (construct Local "gpt2" true (world None "" [])
      = (Ok 0, snd (construct Local "gpt2" true (world None "" [])))
      /\ attr (snd (construct Local "gpt2" true (world None "" []))) 0
           "model_name"
         = attr (snd (construct Local "gpt2" true (world None "" []))) 0
             "agent_identifier").
Proof.
  split.
  - destruct (construct_stores_identifier_twice Interactive "human" false
                (world None "" [])) as (Hm & Hi & _ & Hr).
    split; [exact Hr|]. split; [exact Hm|exact Hi].
  - assert (H : construct Local "gpt2" true (world None "" [])
                = (Ok 0, snd (construct Local "gpt2" true (world None "" []))))
      by (vm_compute; reflexivity).
    split; [exact H|].
    destruct (construct_stores_identifier_twice Local "gpt2" true
                (world None "" [])) as (_ & _ & Hs & _).
    exact (proj2 (proj2 (proj2 (Hs _ _ H)))).
Defined.

(** ** Further runs, on the mocked and on the replayed libraries *)

Lemma GPTAgent_call_malformed_response_witness :
  fst (GPTAgent_call (LO := Replay.ops) 0 "Your move."
         (Replay.remote [Ok {| choices := [] |}]))
  = Ok "An error occurred: list index out of range".
Proof.
  refine (proj1 (GPTAgent_call_malformed_response (LO := Replay.ops)
                   0 "Your move." (Replay.remote [Ok {| choices := [] |}])
                   openrouter (VStr "gpt-4o") {| choices := [] |} Replay.blank
                   _ _ _) _);
    vm_compute; reflexivity.
Defined.

Lemma HFLocalAgent_call_malformed_response_witness :
  fst (HFLocalAgent_call (LO := Replay.ops) 0 "Your move."
         (Replay.local [Ok [∅]]))
  = Ok "An error occurred: 'generated_text'".
Proof.
  refine (proj2 (HFLocalAgent_call_malformed_response (LO := Replay.ops)
                   0 "Your move." (Replay.local [Ok [∅]])
                   "text-generation" [∅] Replay.blank _ _) ∅ [] _ _);
    vm_compute; reflexivity.
Defined.

Lemma GPTAgent_queries_constructed_model_witness :
  new_GPTAgent "gpt-4o" (world (Some "sk-test") "" []) = (Ok 0, remote [])
  /\ exists c,
       trace (snd (GPTAgent_call 0 "Your move." (remote [ReplyText "e2e4"]))) =
       trace (remote [ReplyText "e2e4"]) ++
         [EvCreate c (chat_request (VStr "gpt-4o") "Your move.")].
Proof.
  assert (H : new_GPTAgent "gpt-4o" (world (Some "sk-test") "" [])
              = (Ok 0, remote [])) by (vm_compute; reflexivity).
  split; [exact H|].
  destruct (GPTAgent_queries_constructed_model _ _ _ _ H) as (c & _ & Hcall).
  exists c. apply Hcall. vm_compute. reflexivity.
Defined.

Lemma HFLocalAgent_generates_with_constructed_pipeline_witness :
  new_HFLocalAgent "gpt2" true (world None "" [])
  = (Ok 0, snd (new_HFLocalAgent "gpt2" true (world None "" [])))
  /\ exists p,
       attr (snd (new_HFLocalAgent "gpt2" true (world None "" []))) 0 "pipeline"
       = Some (VPipeline p)
       /\ attr (snd (new_HFLocalAgent "gpt2" true (world None "" []))) 0
            "quantize" = Some (VBool true).
Proof.
  assert (H : new_HFLocalAgent "gpt2" true (world None "" [])
              = (Ok 0, snd (new_HFLocalAgent "gpt2" true (world None "" []))))
    by (vm_compute; reflexivity).
  split; [exact H|].
  destruct (HFLocalAgent_generates_with_constructed_pipeline _ _ _ _ _ H)
    as (p & Hp & Hq & _).
  exists p. split; [exact Hp|exact Hq].
Defined.

Lemma HFLocalAgent_construction_fails_fast_witness :
  fst (new_HFLocalAgent (LO := Replay.ops) "no-such-model" false
         (Replay.world "" Replay.blank))
  = Raise (Replay.not_found "no-such-model")
  /\ trace (snd (new_HFLocalAgent (LO := Replay.ops) "tokenizer-only" true
                  (Replay.world "" Replay.blank)))
     = [EvTokenizer "tokenizer-only"; EvModel "tokenizer-only" true].
Proof.
  split.
  - refine (proj1 (proj1 (HFLocalAgent_construction_fails_fast
                            (LO := Replay.ops) "no-such-model" false
                            (Replay.world "" Replay.blank)
                            (Replay.not_found "no-such-model"))
                     Replay.blank _));
      vm_compute; reflexivity.
  - refine (proj2 (proj2 (HFLocalAgent_construction_fails_fast
                            (LO := Replay.ops) "tokenizer-only" true
                            (Replay.world "" Replay.blank)
                            (Replay.not_found "tokenizer-only"))
                     "tokenizer-only" Replay.blank Replay.blank _ _));
      vm_compute; reflexivity.
Defined.

Lemma HumanAgent_calls_read_successive_lines_witness :
  fst (HumanAgent_call 0 "Second move."
         (snd (HumanAgent_call 0 "First move."
                 (human ("e2e4" +:+ lf +:+ "d2d4" +:+ lf)))))
  = Ok "d2d4".
Proof.
  refine (proj1 (proj2 (HumanAgent_calls_read_successive_lines
                          0 0 "First move." "Second move."
                          (human ("e2e4" +:+ lf +:+ "d2d4" +:+ lf))
                          "e2e4" "d2d4" "" _ _ _)));
    vm_compute; reflexivity.
Defined.

Lemma HumanAgent_call_end_of_input_witness :
  fst (HumanAgent_call 0 "Your move." (human "resign")) = Ok "resign"
  /\ fst (HumanAgent_call 0 "Your move."
            (snd (HumanAgent_call 0 "Your move." (human "resign"))))
     = Raise (EOFError "EOF when reading a line").
Proof.
  assert (H := HumanAgent_call_end_of_input 0 "Your move." (human "resign")
                 "resign").
  destruct H as (H1 & _ & H2);
    [discriminate|vm_compute; reflexivity|vm_compute; reflexivity|].
  split; [exact H1|]. exact (proj1 (H2 0 "Your move.")).
Defined.

Lemma HumanAgent_action_is_one_line_witness :
  fst (HumanAgent_call 0 "Your move." (human ("e2e4" +:+ lf +:+ "d2d4")))
  = Ok "e2e4"
  /\ one_line "e2e4" = true.
Proof.
  assert (H : fst (HumanAgent_call 0 "Your move."
                     (human ("e2e4" +:+ lf +:+ "d2d4"))) = Ok "e2e4")
    by (vm_compute; reflexivity).
  split; [exact H|].
  exact (HumanAgent_action_is_one_line 0 "Your move." _ "e2e4" H).
Defined.

Lemma model_calls_leave_streams_alone_witness :
  stdout (snd (call_of Remote 0 "Your move." (remote [ReplyText "e2e4"]))) = "".
Proof.
  refine (proj2 (model_calls_leave_streams_alone Remote 0 "Your move."
                   (remote [ReplyText "e2e4"]) _)).
  discriminate.
Defined.

Lemma whitespace_only_text_gives_empty_action_witness :
  all_space "  " = true
  /\ fst (call_of Local 0 "Your move." (local [ReplyText "  "])) = Ok "".
Proof.
  split; [reflexivity|].
  apply (whitespace_only_text_gives_empty_action Local 0 "Your move."
           (local [ReplyText "  "]) "  "); [|reflexivity].
  exists "text-generation", [], {[ "generated_text" := "  " ]}, [].
  repeat split; vm_compute; reflexivity.
Defined.


Lemma constructed_attributes_exact_witness :
  construct Remote "gpt-4o" false (world (Some "sk-test") "" [])
  = (Ok 0, remote [])
  /\ exists o, heap (remote []) !! 0 = Some o
               /\ obj_class o = GPTAgent
               /\ dom (obj_attrs o) = attribute_names Remote.
Proof.
  assert (H : construct Remote "gpt-4o" false (world (Some "sk-test") "" [])
              = (Ok 0, remote [])) by (vm_compute; reflexivity).
  split; [exact H|].
  exact (constructed_attributes_exact _ _ _ _ _ _ H).
Defined.
